(** * ember-changeset: the buffered store of [addon/index.js]

    A shallow embedding of [EmberChangeset] (its [get], [execute] and the
    notifying overrides), of the factory [changeset] and of the [Proxy]
    wrappers [Changeset] / [ChangesetKlass], together with the properties
    the specification states about them.

    JavaScript values are modelled as trees: an object is its ordered list
    of own enumerable properties together with a prototype tag, so that
    [Object.keys], [Object.assign], spread and [instanceof Change] can be
    written out the way the source uses them. *)

From Stdlib Require Import List String Ascii Bool ZArith.
From Stdlib Require Import DecimalString.
Import ListNotations.
Local Open Scope string_scope.
Local Open Scope list_scope.

Set Warnings "-register-all".

(** ** JavaScript values *)

(** The prototype of an object, as far as the source looks at it:
    [Change] instances ([instanceof Change]), relationship placeholders,
    instances of some other class, and plain [{}] objects. *)
Inductive proto : Type :=
| PObject
| PChange
| PBelongsTo
| PClass (name : string).

Inductive value : Type :=
| VUndef
| VNull
| VBool (b : bool)
| VNum (n : Z)
| VNaN
| VStr (s : string)
| VFun (name : string)
| VDate (t : Z)
| VArr (xs : list value)
| VObj (p : proto) (props : list (string * value)).

Definition props := list (string * value).

(** Induction over values that reaches inside arrays and property lists. *)
Section value_induction.
Variable P : value -> Prop.
Hypothesis HUndef : P VUndef.
Hypothesis HNull : P VNull.
Hypothesis HBool : forall b, P (VBool b).
Hypothesis HNum : forall n, P (VNum n).
Hypothesis HNaN : P VNaN.
Hypothesis HStr : forall s, P (VStr s).
Hypothesis HFun : forall f, P (VFun f).
Hypothesis HDate : forall t, P (VDate t).
Hypothesis HArr : forall xs, Forall P xs -> P (VArr xs).
Hypothesis HObj : forall p ps, Forall (fun kv => P (snd kv)) ps -> P (VObj p ps).

End value_induction.

(** [Boolean(v)] *)
Definition truthy (v : value) : bool :=
  match v with
  | VUndef | VNull | VNaN => false
  | VBool b => b
  | VNum n => negb (n =? 0)%Z
  | VStr s => negb (s =? "")
  | VFun _ | VDate _ | VArr _ | VObj _ _ => true
  end.

(** [Array.isArray(v)] *)
Definition isArray (v : value) : bool :=
  match v with VArr _ => true | _ => false end.

(** [typeof v === 'undefined'] *)
Definition is_undefined (v : value) : bool :=
  match v with VUndef => true | _ => false end.

(** [v === null] *)
Definition is_null (v : value) : bool :=
  match v with VNull => true | _ => false end.

(** [v instanceof Change] *)
Definition is_Change (v : value) : bool :=
  match v with VObj PChange _ => true | _ => false end.

(** [addon/utils/is-object.js]:
    [val !== null && !(val instanceof Date) && !Array.isArray(val) &&
     (typeof val === 'object' || typeOf(val) === 'instance')].
    [typeof] is ['object'] for [null], dates, arrays and objects; Ember's
    [typeOf] answers ['instance'] only for objects, so the last disjunct
    adds nothing to the first. *)
Definition isObject (val : value) : bool :=
  negb (is_null val) &&
  negb (match val with VDate _ => true | _ => false end) &&
  negb (isArray val) &&
  match val with
  | VNull | VDate _ | VArr _ | VObj _ _ => true
  | _ => false
  end.

(** ** Own properties *)

Fixpoint lookup (ps : props) (k : string) : option value :=
  match ps with
  | [] => None
  | (k', v) :: r => if k' =? k then Some v else lookup r k
  end.

(** [obj[k] = v] on a property list: an existing key keeps its place, a new
    key is added last. *)
Fixpoint assign (ps : props) (k : string) (v : value) : props :=
  match ps with
  | [] => [(k, v)]
  | (k', v') :: r => if k' =? k then (k', v) :: r else (k', v') :: assign r k v
  end.

Definition keys (ps : props) : list string := map fst ps.

Definition index_key (n : nat) : string :=
  NilZero.string_of_uint (Nat.to_uint n).

(** The array index a property name denotes, if it is the canonical decimal
    form of one. *)
Definition array_index (k : string) : option nat :=
  match NilZero.uint_of_string k with
  | Some u => let n := Nat.of_uint u in
              if index_key n =? k then Some n else None
  | None => None
  end.

Fixpoint indexed (n : nat) (xs : list value) : props :=
  match xs with
  | [] => []
  | x :: r => (index_key n, x) :: indexed (S n) r
  end.

Fixpoint chars (s : string) : list value :=
  match s with
  | EmptyString => []
  | String c r => VStr (String c EmptyString) :: chars r
  end.

(** The own enumerable properties of a value, in [Object.keys] order. *)
Definition own_props (v : value) : props :=
  match v with
  | VObj _ ps => ps
  | VArr xs => indexed 0 xs
  | VStr s => indexed 0 (chars s)
  | _ => []
  end.

(** [Object.prototype.hasOwnProperty.call(obj, k)] *)
Definition hasOwnProperty (obj : value) (k : string) : bool :=
  match obj with
  | VObj _ ps => match lookup ps k with Some _ => true | None => false end
  | VArr xs =>
      (k =? "length") ||
      match array_index k with Some n => Nat.ltb n (List.length xs) | None => false end
  | VStr s =>
      (k =? "length") ||
      match array_index k with Some n => Nat.ltb n (String.length s) | None => false end
  | _ => false
  end.

(** [obj[k]] for a data property; a missing property reads as [undefined]. *)
Definition get_prop (obj : value) (k : string) : value :=
  match obj with
  | VObj _ ps => match lookup ps k with Some v => v | None => VUndef end
  | VArr xs =>
      if k =? "length" then VNum (Z.of_nat (List.length xs))
      else match array_index k with
           | Some n => nth n xs VUndef
           | None => VUndef
           end
  | VStr s =>
      if k =? "length" then VNum (Z.of_nat (String.length s))
      else match array_index k with
           | Some n => nth n (chars s) VUndef
           | None => VUndef
           end
  | _ => VUndef
  end.

(** The methods every object inherits from [Object.prototype]. *)
Definition Object_prototype_methods : list string :=
  [ "constructor"; "hasOwnProperty"; "isPrototypeOf"; "propertyIsEnumerable";
    "toLocaleString"; "toString"; "valueOf";
    "__defineGetter__"; "__defineSetter__"; "__lookupGetter__"; "__lookupSetter__" ].

(** [obj[k]] read the way JavaScript reads it, through the prototype chain:
    an own property first, then what [Object.prototype] gives every value
    but [undefined] and [null], its methods and the [__proto__] accessor
    (an object with no enumerable key). Members of a class's own prototype
    are not modelled. *)
Definition read_prop (obj : value) (k : string) : value :=
  match obj with
  | VUndef | VNull => VUndef
  | _ =>
      if hasOwnProperty obj k then get_prop obj k
      else if existsb (String.eqb k) Object_prototype_methods then VFun k
      else if k =? "__proto__" then VObj PObject []
      else VUndef
  end.

(** [obj[k] = v]; on a value that holds no properties the write is lost. *)
Definition set_prop (obj : value) (k : string) (v : value) : value :=
  match obj with
  | VObj p ps => VObj p (assign ps k v)
  | _ => obj
  end.

(** [Object.keys(obj)] *)
Definition Object_keys (obj : value) : list string := keys (own_props obj).

(** [Object.getPrototypeOf(obj)] *)
Definition getPrototypeOf (obj : value) : proto :=
  match obj with VObj p _ => p | _ => PObject end.

(** [Object.assign(target, source)] *)
Definition Object_assign (target source : value) : value :=
  fold_left (fun acc kv => set_prop acc (fst kv) (snd kv)) (own_props source) target.

(** [{ ...a, ...b }] *)
Definition spread2 (a b : value) : value :=
  Object_assign (Object_assign (VObj PObject []) a) b.

(** [key.split('.')] and [parts.join('.')] *)
Fixpoint split_dot (s : string) : list string :=
  match s with
  | EmptyString => [""]
  | String c r =>
      if Ascii.eqb c "."%char then "" :: split_dot r
      else match split_dot r with
           | h :: t => String c h :: t
           | [] => [String c ""]
           end
  end.

Definition join_dot (parts : list string) : string := String.concat "." parts.

(** ** The store and its methods' effects *)

(** An [EmberChangeset] instance: the three tracked fields the class
    declares, and whatever else the instance exposes through the base class
    ([inherited]: its other getters, methods and fields, by name). *)
Record store : Type := mkStore {
  _changes : value;
  _errors : value;
  _content : value;
  inherited : props
}.

Definition CHANGES : string := "_changes".
Definition ERRORS : string := "_errors".
Definition CONTENT : string := "_content".

Definition set_CONTENT (s : store) (v : value) : store :=
  mkStore (_changes s) (_errors s) v (inherited s).

(** What a method call leaves behind besides its result: a notification
    records the store the observer is shown, a merge records its operands. *)
Inductive event : Type :=
| Notify (key : string) (seen : store)
| MergeDeep (target source : value).

Record outcome (A : Type) : Type := mkOutcome {
  returned : A;
  after : store;
  trace : list event
}.
Arguments mkOutcome {A} _ _ _.
Arguments returned {A} _.
Arguments after {A} _.
Arguments trace {A} _.

(** A method body: it runs on the receiver's state and yields an outcome. *)
Definition M (A : Type) : Type := store -> outcome A.

Definition ret {A : Type} (a : A) : M A := fun s => mkOutcome a s [].

Definition bind {A B : Type} (m : M A) (f : A -> M B) : M B :=
  fun s =>
    let o := m s in
    let o' := f (returned o) (after o) in
    mkOutcome (returned o') (after o') (trace o ++ trace o').

Notation "x <- m ;; k" := (bind m (fun x => k))
  (at level 61, m at next level, right associativity).
Notation "m ;;; k" := (bind m (fun _ => k))
  (at level 61, right associativity).

Definition read {A : Type} (f : store -> A) : M A := fun s => mkOutcome (f s) s [].
Definition write (f : store -> store) : M unit := fun s => mkOutcome tt (f s) [].
Definition emit (e : store -> event) : M unit := fun s => mkOutcome tt s [e s].

(** [notifyPropertyChange(this, key)]: observers of [key] run now, on the
    store as it is now. *)
Definition notifyPropertyChange (key : string) : M unit := emit (Notify key).

(** What a method hands back: [this], a value, or nothing. *)
Inductive jsret : Type :=
| RThis
| RValue (v : value)
| RVoid.

(** ** Imported helpers

    [addon/index.js] imports these; the class is written against them. *)
Class Imports : Type := {
  (** [get] of [@ember/object], bound to [getDeep] and [safeGet] *)
  getDeep : value -> string -> value;
  (** [normalizeObject] of [validated-changeset] *)
  normalizeObject : value -> value;
  (** [./utils/is-belongs-to-relationship] *)
  isBelongsToRelationship : value -> bool;
  (** [./utils/is-leaf] *)
  isLeafInChanges : string -> value -> bool;
  (** [./utils/merge-deep], called with Ember's [safeGet] / [safeSet] *)
  mergeDeep : value -> value -> value
}.

(** Modelled from the spec: the base class's [isValid] getter, "no pending
    errors": the Errors map is empty. *)
Definition isValid (s : store) : bool :=
  match Object_keys (_errors s) with [] => true | _ => false end.

(** Modelled from the spec: the base class's [isDirty] getter, "pending
    changes exist": the Changes map is non-empty. *)
Definition isDirty (s : store) : bool :=
  match Object_keys (_changes s) with [] => false | _ => true end.

(** The methods and fields the class body itself declares. *)
Definition class_members : list string :=
  [ "getDeep"; "safeGet"; "safeSet"; "addError"; "pushErrors"; "_setProperty";
    "_notifyVirtualProperties"; "_deleteKey"; "execute"; "get" ].

(** [this[k]] *)
Definition this_prop (s : store) (k : string) : value :=
  if k =? CHANGES then _changes s
  else if k =? ERRORS then _errors s
  else if k =? CONTENT then _content s
  else if existsb (String.eqb k) class_members then VFun k
  else if k =? "isValid" then VBool (isValid s)
  else if k =? "isDirty" then VBool (isDirty s)
  else match lookup (inherited s) k with Some v => v | None => VUndef end.

(** ** [class EmberChangeset] *)

Section EmberChangeset.
Context `{I : Imports}.

(** [execute()] *)
Definition execute : M jsret :=
  valid <- read isValid ;;
  dirty <- read isDirty ;;
  (if valid && dirty then
     content <- read _content ;;
     changes <- read _changes ;;
     emit (fun _ => MergeDeep content changes) ;;;
     write (fun s => set_CONTENT s (mergeDeep content changes))
   else ret tt) ;;;
  ret RThis.

(** Lines 169-193 of [get]: the view of [result] completed with the keys
    [contentAtLeaf] has and [result] lacks. *)
Definition merge_siblings (key baseKey : string) (content result contentAtLeaf : value)
  : value :=
  let netKeys := Object_keys contentAtLeaf in
  if Nat.eqb (List.length netKeys) 0 then result
  else
    let data :=
      Object_assign (VObj (getPrototypeOf (get_prop content baseKey)) []) result in
    fold_left
      (fun data k =>
         let inResult := read_prop result k in
         let keyParts := split_dot key ++ [k] in
         let contentData := getDeep content (join_dot keyParts) in
         if isObject contentData && isObject inResult then
           set_prop data k (spread2 contentData inResult)
         else if is_undefined inResult then
           set_prop data k contentData
         else data)
      netKeys data.

(** The four tests of lines 163-168. *)
Definition merges_with_content (key : string) (changes result contentAtLeaf : value)
  : bool :=
  negb (isArray result) &&
  isObject contentAtLeaf &&
  negb (isBelongsToRelationship contentAtLeaf) &&
  negb (isLeafInChanges key changes).

(** Lines 140-148: the value [result] is given, the candidate read off
    Changes. *)
Definition changes_candidate (baseKey : string) (remaining : list string)
  (changes : value) : value :=
  if Nat.ltb 0 (List.length remaining) then
    let c := get_prop changes baseKey in
    getDeep (normalizeObject c) (join_dot remaining)
  else get_prop changes baseKey.

(** Lines 140-148 with the [return] of line 144: [inl result] when the
    method returns there, [inr result] when it goes on to line 150. *)
Definition changes_result (baseKey : string) (remaining : list string) (changes : value)
  : value + value :=
  let result := changes_candidate baseKey remaining changes in
  if Nat.ltb 0 (List.length remaining) then
    if negb (is_undefined result) && negb (isObject result) then inl result
    else inr result
  else inr result.

(** Step 1 of [get], lines 136-202: [Some v] when the block returns [v],
    [None] when control leaves it. *)
Definition get_from_changes (key baseKey : string) (remaining : list string) (s : store)
  : option value :=
  if hasOwnProperty (_changes s) baseKey then
    let changes := _changes s in
    match changes_result baseKey remaining changes with
    | inl result => Some result
    | inr result =>
        if (negb (is_undefined result) && negb (is_null result)) && isObject result then
          let result := normalizeObject result in
          let content := _content s in
          let contentAtLeaf := getDeep content key in
          if merges_with_content key changes result contentAtLeaf then
            Some (merge_siblings key baseKey content result contentAtLeaf)
          else Some result
        else if truthy result then Some (get_prop result "value")
        else None
    end
  else None.

(** Steps 2 and 3 of [get], lines 205-218. *)
Definition get_from_instance (key baseKey : string) (remaining : list string) (s : store)
  : value :=
  if negb (is_undefined (this_prop s key)) then this_prop s key
  else
    let fallback := getDeep (_content s) key in
    if truthy (this_prop s baseKey) then
      let v := this_prop s baseKey in
      if isObject v then getDeep v (join_dot remaining) else fallback
    else fallback.

(** [get(key)] *)
Definition get (key : string) : M value :=
  let parts := split_dot key in
  let baseKey := hd "" parts in
  let remaining := tl parts in
  fromChanges <- read (get_from_changes key baseKey remaining) ;;
  match fromChanges with
  | Some v => ret v
  | None => read (get_from_instance key baseKey remaining)
  end.

End EmberChangeset.

(** ** The helpers the class imports *)

Module Lib.

(** Modelled from the spec: the accessor [safeGet(obj, path)] ([get] of
    [@ember/object], not part of this repository), a deep-path read: the
    path is walked segment by segment and the read gives [undefined] as soon
    as it meets [undefined] or [null]. *)
Definition get (obj : value) (path : string) : value :=
  fold_left
    (fun o part => match o with
                   | VUndef | VNull => VUndef
                   | _ => get_prop o part
                   end)
    (split_dot path) obj.

(** Modelled from the spec: [normalizeObject] of [validated-changeset] (not
    part of this repository) "normalizes an internal change wrapper value
    down to its plain stored value": a wrapper gives the value it holds, a
    nested tree gives a plain copy whose entries are normalized in turn,
    anything else is left as it is. *)
Fixpoint normalizeObject (target : value) : value :=
  match target with
  | VObj PChange ps => get_prop target "value"
  | VObj _ ps =>
      VObj PObject
        ((fix each (l : props) : props :=
            match l with
            | [] => []
            | (k, next) :: r => (k, normalizeObject next) :: each r
            end) ps)
  | _ => target
  end.

End Lib.

Module Utils.

(** Modelled from the spec: [addon/utils/is-belongs-to-relationship.js] is
    missing; it "detects whether a resolved sub-object represents a
    one-to-one relationship placeholder", an object "tagged as a one-to-one
    relationship object". The tag is the [PBelongsTo] prototype. *)
Definition isBelongsToRelationship (obj : value) : bool :=
  match obj with VObj PBelongsTo _ => true | _ => false end.

(** Modelled from the spec: [addon/utils/is-leaf.js] is missing; it "detects
    whether a dotted key path is already a terminal (leaf) entry directly
    present in the changes map": the deep read of the path off Changes is a
    change wrapper. *)
Definition isLeafInChanges (key : string) (changes : value) : bool :=
  is_Change (Lib.get changes key).

(** A plain mergeable object: an object that is not a change wrapper. *)
Definition is_mergeable (v : value) : bool := isObject v && negb (is_Change v).

(** The value a change wrapper holds; any other value is itself. *)
Definition unwrap (v : value) : value :=
  if is_Change v then get_prop v "value" else v.

(** Modelled from the spec: [addon/utils/merge-deep.js] is missing. "For
    every enumerable key in source: if both destination[key] and source[key]
    are plain mergeable objects, recurse; otherwise set destination[key] =
    source[key] directly (primitives, arrays, and objects with no matching
    destination counterpart are overwritten wholesale, not merged). Returns
    the mutated destination." A change wrapper is a leaf of Changes, not a
    plain mergeable object: it is never merged into, and what is written for
    it is the value it holds (after [execute()], [content.age === 11]). A
    nested tree with no object to merge into is written as it is. Single
    keys are read and written with [get_prop] and [set_prop]; a destination
    or source that holds no properties leaves the destination as it is. *)
Fixpoint mergeDeep (target source : value) {struct source} : value :=
  match source, target with
  | VObj _ sps, VObj tp tps =>
      VObj tp
        ((fix each (l : props) (dest : props) {struct l} : props :=
            match l with
            | [] => dest
            | (key, sv) :: r =>
                let tv := get_prop (VObj tp dest) key in
                each r (assign dest key
                          (if is_mergeable tv && is_mergeable sv
                           then mergeDeep tv sv
                           else unwrap sv))
            end) sps tps)
  | _, _ => target
  end.

End Utils.

(** The imports as this development models them. *)
#[export] Instance addon_imports : Imports := {|
  getDeep := Lib.get;
  normalizeObject := Lib.normalizeObject;
  isBelongsToRelationship := Utils.isBelongsToRelationship;
  isLeafInChanges := Utils.isLeafInChanges;
  mergeDeep := Utils.mergeDeep
|}.

(** Object literals. *)
Definition obj (ps : props) : value := VObj PObject ps.
Definition Change (v : value) : value := VObj PChange [("value", v)].


(** ** Well-formed objects

    A JavaScript object has each property name once. *)

Fixpoint nodupb (l : list string) : bool :=
  match l with
  | [] => true
  | x :: r => negb (existsb (String.eqb x) r) && nodupb r
  end.




(** ** Example stores *)

(** [{ name: 'Jim', age: 10 }] after a successful [set('age', 11)]. *)
Definition jim_store : store :=
  mkStore (obj [("age", Change (VNum 11))])
          (obj [])
          (obj [("name", VStr "Jim"); ("age", VNum 10)])
          [].

(** Content [{ user: { name: 'A', email: 'a@x.com' } }] after a successful
    [set('user.name', 'B')]: Changes is [{ user: { name: Change('B') } }]. *)
Definition user_content : value :=
  obj [("user", obj [("name", VStr "A"); ("email", VStr "a@x.com")])].

Definition user_changes : value :=
  obj [("user", obj [("name", Change (VStr "B"))])].

Definition user_store : store := mkStore user_changes (obj []) user_content [].

(** Content [{ owner: <relationship> }] whose relationship placeholder holds
    [id] and internal fields, after a successful [set('owner.id', 2)]. *)
Definition owner_store : store :=
  mkStore (obj [("owner", obj [("id", Change (VNum 2))])])
          (obj [])
          (obj [("owner", VObj PBelongsTo
                            [("id", VNum 1); ("isLoaded", VBool true);
                             ("content", VNull)])])
          [].

(** [{ name: 'Jim', age: 10 }] with nothing pending. *)
Definition pristine_store : store :=
  mkStore (obj []) (obj []) (obj [("name", VStr "Jim"); ("age", VNum 10)]) [].

(** Content [{ user: { age: 5 } }] after a successful [set('user.age', 0)],
    with an error record left at the same path. *)
Definition zero_store : store :=
  mkStore (obj [("user", obj [("age", Change (VNum 0))])])
          (obj [("user.age", obj [("value", VNum 7); ("validation", VStr "too old")])])
          (obj [("user", obj [("age", VNum 5)])])
          [].

(** Content [{ user: { age: 5, name: 'A' } }] after a successful
    [set('user.age', 0)], with an error record at [user.name]. *)
Definition sibling_error_store : store :=
  mkStore (obj [("user", obj [("age", Change (VNum 0))])])
          (obj [("user.name", obj [("value", VStr ""); ("validation", VStr "blank")])])
          (obj [("user", obj [("age", VNum 5); ("name", VStr "A")])])
          [].

(** ** The base class and the notifying overrides *)

(** The validator handed to the constructor: path, new value, old value. *)
Definition validator : Type := string -> value -> value -> value.

Definition defaultValidatorFn : validator := fun _ _ _ => VBool true.

(** [BufferedChangeset] of [validated-changeset], the class [EmberChangeset]
    extends: its constructor and the methods the subclass calls through
    [super] or inherits. They are not part of this repository and may do
    anything to the store, notifications of their own included. *)
Class BufferedChangeset : Type := {
  super_constructor : value -> validator -> value -> props -> store;
  super_set : string -> value -> M unit;
  super_addError : string -> value -> M value;
  super_pushErrors : string -> list value -> M value;
  super__setProperty : string -> value -> value -> M unit;
  super__notifyVirtualProperties : option (list string) -> M (option (list string));
  super__deleteKey : string -> string -> M value
}.

Section Overrides.
Context `{B : BufferedChangeset}.

(** [addError(key, error)] *)
Definition addError (key : string) (error : value) : M value :=
  super_addError key error ;;;
  notifyPropertyChange ERRORS ;;;
  notifyPropertyChange key ;;;
  ret error.

(** [pushErrors(key, ...newErrors)] *)
Definition pushErrors (key : string) (newErrors : list value) : M value :=
  r <- super_pushErrors key newErrors ;;
  let value := get_prop r "value" in
  let validation := get_prop r "validation" in
  notifyPropertyChange ERRORS ;;;
  notifyPropertyChange key ;;;
  ret (obj [("value", value); ("validation", validation)]).

(** [_setProperty({ key, value, oldValue })] *)
Definition _setProperty (key : string) (value oldValue : value) : M jsret :=
  super__setProperty key value oldValue ;;;
  notifyPropertyChange CHANGES ;;;
  notifyPropertyChange key ;;;
  ret RVoid.

(** [_notifyVirtualProperties(keys)] *)
Definition _notifyVirtualProperties (keys : option (list string)) : M jsret :=
  keys <- super__notifyVirtualProperties keys ;;
  fold_right (fun key rest => notifyPropertyChange key ;;; rest) (ret tt)
             (match keys with Some ks => ks | None => [] end) ;;;
  ret RVoid.

(** [_deleteKey(objName, key = '')] *)
Definition _deleteKey (objName : string) (key : option string) : M value :=
  let key := match key with Some k => k | None => "" end in
  result <- super__deleteKey objName key ;;
  notifyPropertyChange (objName ++ "." ++ key) ;;;
  notifyPropertyChange objName ;;;
  ret result.

End Overrides.

(** ** The factory and the [Proxy] wrappers *)

(** A call that returns or throws. *)
Inductive result (A : Type) : Type :=
| Ok (a : A)
| Throw (message : string).
Arguments Ok {A} _.
Arguments Throw {A} _.

Definition and_then {A C : Type} (r : result A) (k : A -> result C) : result C :=
  match r with
  | Ok a => k a
  | Throw m => Throw m
  end.

(** Modelled from the spec: [assert(message, test)] of [@ember/debug] (not
    part of this repository), "a fatal assertion failure raised synchronously":
    it throws when the test is false. *)
Definition assert (message : string) (test : bool) : result unit :=
  if test then Ok tt else Throw message.

(** A store implementation: how it is constructed, and its [get] and [set]. *)
Record klass : Type := mkKlass {
  construct : value -> validator -> value -> props -> store;
  klass_get : string -> M value;
  klass_set : string -> value -> M unit
}.

(** [options]: the alternate implementation [options.changeset], if any,
    and the other options. *)
Record options : Type := mkOptions {
  options_changeset : option klass;
  options_rest : props
}.

(** An instance: its class and its state. *)
Record instance : Type := mkInstance {
  class_of : klass;
  state : store
}.

(** [new K(obj, validateFn, validationMap, options)] *)
Definition new (K : klass) (o : value) (validateFn : validator) (validationMap : value)
  (opts : options) : instance :=
  mkInstance K (construct K o validateFn validationMap (options_rest opts)).

(** A property key: a string or a symbol with its description. *)
Inductive propkey : Type :=
| KString (s : string)
| KSymbol (description : string).

(** [key.toString()] *)
Definition toString (key : propkey) : string :=
  match key with
  | KString s => s
  | KSymbol d => "Symbol(" ++ d ++ ")"
  end.

(** The handler of a [Proxy]: its [get] and [set] traps, run on the target. *)
Record ProxyHandler : Type := mkHandler {
  trap_get : instance -> propkey -> outcome value;
  trap_set : instance -> propkey -> value -> outcome bool
}.

Record Proxy : Type := new_Proxy {
  proxy_target : instance;
  proxy_handler : ProxyHandler
}.

Section Factory.
Context `{I : Imports} `{B : BufferedChangeset}.

(** [class EmberChangeset extends BufferedChangeset]: the constructor and
    [set] are inherited, [get] is the override. *)
Definition EmberChangeset : klass :=
  mkKlass super_constructor get super_set.

(** [changeset(obj, validateFn = defaultValidatorFn, validationMap = {},
    options = {})]; an omitted argument is [None]. *)
Definition changeset (o : value) (validateFn : option validator)
  (validationMap : option value) (opts : option options) : result instance :=
  let validateFn := match validateFn with Some f => f | None => defaultValidatorFn end in
  let validationMap := match validationMap with Some m => m | None => obj [] end in
  let opts := match opts with Some x => x | None => mkOptions None [] end in
  and_then (assert "Underlying object for changeset is missing" (truthy o)) (fun _ =>
  and_then (assert "Array is not a valid type to pass as the first argument to `changeset`"
              (negb (isArray o))) (fun _ =>
  match options_changeset opts with
  | Some K => Ok (new K o validateFn validationMap opts)
  | None =>
      let c := new EmberChangeset o validateFn validationMap opts in
      Ok c
  end)).

(** [function Changeset(obj, validateFn, validationMap, options)] *)
Definition Changeset (o : value) (validateFn : option validator)
  (validationMap : option value) (opts : option options) : result Proxy :=
  and_then (changeset o validateFn validationMap opts) (fun c =>
  Ok (new_Proxy c
        (mkHandler
           (fun targetBuffer key =>
              (res <- klass_get (class_of targetBuffer) (toString key) ;;
               ret res) (state targetBuffer))
           (fun targetBuffer key value =>
              (klass_set (class_of targetBuffer) (toString key) value ;;;
               ret true) (state targetBuffer))))).

(** [class ChangesetKlass]: its constructor returns the proxy. *)
Definition ChangesetKlass (o : value) (validateFn : option validator)
  (validationMap : option value) (opts : option options) : result Proxy :=
  and_then (changeset o validateFn validationMap opts) (fun c =>
  Ok (new_Proxy c
        (mkHandler
           (fun targetBuffer key =>
              (res <- klass_get (class_of targetBuffer) (toString key) ;;
               ret res) (state targetBuffer))
           (fun targetBuffer key value =>
              (klass_set (class_of targetBuffer) (toString key) value ;;;
               ret true) (state targetBuffer))))).

End Factory.

(** [proxy[key] = value]: the [set] trap runs on the target; a trap that
    answers [false] makes the assignment throw a [TypeError] (strict mode). *)
Definition proxy_assign (p : Proxy) (key : propkey) (v : value)
  : result (outcome bool) :=
  let o := trap_set (proxy_handler p) (proxy_target p) key v in
  if returned o then Ok o else Throw "TypeError".

(** [proxy[key]] *)
Definition proxy_read (p : Proxy) (key : propkey) : outcome value :=
  trap_get (proxy_handler p) (proxy_target p) key.

(** A handler forwards to the store: its [set] trap does what the target's
    [set] does with the key's string and answers [true]; its [get] trap
    answers what the target's [get] answers for the key's string. *)
Definition forwards_to_store (h : ProxyHandler) : Prop :=
  (forall targetBuffer key v,
     let call := klass_set (class_of targetBuffer) (toString key) v (state targetBuffer) in
     returned (trap_set h targetBuffer key v) = true /\
     after (trap_set h targetBuffer key v) = after call /\
     trace (trap_set h targetBuffer key v) = trace call) /\
  (forall targetBuffer key,
     let call := klass_get (class_of targetBuffer) (toString key) (state targetBuffer) in
     returned (trap_get h targetBuffer key) = returned call /\
     after (trap_get h targetBuffer key) = after call /\
     trace (trap_get h targetBuffer key) = trace call).

(** ** Further example stores *)

(** Content with fields named like members of the store, nothing pending. *)
Definition shadowed_store : store :=
  mkStore (obj []) (obj [])
          (obj [("execute", VStr "now"); ("name", VStr "Jim")])
          [].

(** Changes holding a bare array at [tags], not wrapped in a [Change]. *)
Definition bare_entry_store : store :=
  mkStore (obj [("tags", VArr [VStr "c"])]) (obj [])
          (obj [("tags", VArr [VStr "a"; VStr "b"])])
          [].

(** What lines 183-190 of [get] write at sibling key [k], if anything. *)
Definition sibling_write `{I : Imports} (key : string) (content result : value)
  (k : string) : option value :=
  let inResult := read_prop result k in
  let contentData := getDeep content (key ++ "." ++ k) in
  if isObject contentData && isObject inResult then Some (spread2 contentData inResult)
  else if is_undefined inResult then Some contentData
  else None.

(** Content [{ user: { name: 'A', address: { city: 'X', zip: '1' } } }] and
    the normalized candidate [{ address: { city: 'Y' } }] for [user]. *)
Definition address_content : value :=
  obj [("user", VObj (PClass "User")
                  [("name", VStr "A");
                   ("address", obj [("city", VStr "X"); ("zip", VStr "1")])])].

Definition address_candidate : props :=
  [("address", obj [("city", VStr "Y")])].



(** The same Changes, Content and own properties under another Errors map,
    which here decides no property of the instance. *)
Definition sibling_clean_store : store :=
  mkStore (_changes sibling_error_store) (obj []) (_content sibling_error_store) [].


(** ** Facts about property lists *)

Lemma lookup_assign_same (ps : props) (k : string) (v : value) :
  lookup (assign ps k v) k = Some v.
Proof.
  induction ps as [|[k' v'] r IH]; simpl.
  - now rewrite String.eqb_refl.
  - destruct (k' =? k) eqn:E; simpl; rewrite E; auto.
Qed.

Lemma lookup_assign_other (ps : props) (k k' : string) (v : value) :
  k <> k' -> lookup (assign ps k v) k' = lookup ps k'.
Proof.
  intros Hne. induction ps as [|[k0 v0] r IH]; simpl.
  - destruct (k =? k') eqn:E; auto. apply String.eqb_eq in E. contradiction.
  - destruct (k0 =? k) eqn:E; simpl.
    + apply String.eqb_eq in E. subst k0.
      destruct (k =? k') eqn:E'; auto.
      apply String.eqb_eq in E'. contradiction.
    + now rewrite IH.
Qed.


Lemma existsb_eqb_In (k : string) (l : list string) :
  existsb (String.eqb k) l = true <-> In k l.
Proof.
  rewrite existsb_exists. split.
  - intros [x [Hin E]]. apply String.eqb_eq in E. now subst.
  - intros Hin. exists k. split; [assumption | apply String.eqb_refl].
Qed.

Lemma isObject_VObj (v : value) :
  isObject v = true -> exists p ps, v = VObj p ps.
Proof.
  destruct v; simpl; try discriminate. intros _. eauto.
Qed.

(** ** Deep merge *)













(** ** [execute] *)

Lemma execute_unfold `{I : Imports} (s : store) :
  execute s =
    if isValid s && isDirty s
    then mkOutcome RThis (set_CONTENT s (mergeDeep (_content s) (_changes s)))
                   [MergeDeep (_content s) (_changes s)]
    else mkOutcome RThis s [].
Proof.
  unfold execute, bind, read, write, emit, ret; simpl.
  destruct (isValid s && isDirty s); reflexivity.
Qed.

(** C1: for every state, [execute()] calls the deep merge of Content with
    Changes exactly when [isValid] and [isDirty] both hold, stores its result
    as the new Content in that case and leaves the store alone otherwise, and
    returns [this] either way. *)
Theorem execute_merges_iff_valid_and_dirty `{I : Imports} (s : store) :
  returned (execute s) = RThis /\
  trace (execute s) =
    (if isValid s && isDirty s then [MergeDeep (_content s) (_changes s)] else []) /\
  after (execute s) =
    (if isValid s && isDirty s
     then set_CONTENT s (mergeDeep (_content s) (_changes s))
     else s).
Proof.
  rewrite execute_unfold.
  destruct (isValid s && isDirty s); simpl; auto.
Qed.

(** C2, as the specification states it, fails: [jim_store] is valid and
    dirty, [execute()] fires, and Changes is not empty afterwards. *)
Lemma execute_does_not_clear_changes :
  ~ (isValid jim_store && isDirty jim_store = true ->
     Object_keys (_changes (after (execute jim_store))) = [] /\
     _content (after (execute jim_store)) =
       mergeDeep (_content jim_store) (_changes jim_store)).
Proof.
  intros H. destruct (H eq_refl) as [Hempty _]. discriminate Hempty.
Qed.

(** C2, amended: whenever [execute()] fires, Content becomes the deep merge
    of the prior Content with the prior Changes, and Changes and Errors are
    left as they were, so the store is still dirty. *)
Theorem execute_merges_and_keeps_changes `{I : Imports} (s : store) :
  isValid s && isDirty s = true ->
  _content (after (execute s)) = mergeDeep (_content s) (_changes s) /\
  _changes (after (execute s)) = _changes s /\
  _errors (after (execute s)) = _errors s /\
  isDirty (after (execute s)) = true.
Proof.
  intros Hfire.
  rewrite execute_unfold, Hfire. simpl.
  apply andb_prop in Hfire. destruct Hfire as [_ Hdirty].
  repeat split; try reflexivity. exact Hdirty.
Qed.

Lemma execute_merges_and_keeps_changes_witness :
  isValid jim_store && isDirty jim_store = true /\
  _content (after (execute jim_store)) =
    mergeDeep (_content jim_store) (_changes jim_store) /\
  _changes (after (execute jim_store)) = _changes jim_store /\
  _errors (after (execute jim_store)) = _errors jim_store /\
  isDirty (after (execute jim_store)) = true.
Proof.
  split; [reflexivity | apply (execute_merges_and_keeps_changes jim_store); reflexivity].
Defined.






(** ** [get] *)

Lemma get_unfold `{I : Imports} (key : string) (s : store) :
  get key s =
    mkOutcome
      (match get_from_changes key (hd "" (split_dot key)) (tl (split_dot key)) s with
       | Some v => v
       | None => get_from_instance key (hd "" (split_dot key)) (tl (split_dot key)) s
       end) s [].
Proof.
  unfold get, bind, read, ret; simpl.
  destruct (get_from_changes key _ _ s); reflexivity.
Qed.

(** A candidate that is a plain object is never returned at line 144. *)
Lemma changes_result_object `{I : Imports} (baseKey : string) (remaining : list string)
  (changes : value) :
  isObject (changes_candidate baseKey remaining changes) = true ->
  changes_result baseKey remaining changes
  = inr (changes_candidate baseKey remaining changes).
Proof.
  intros Hobj. unfold changes_result.
  destruct (Nat.ltb 0 (List.length remaining)); [|reflexivity].
  rewrite Hobj, andb_false_r. reflexivity.
Qed.


Lemma truthy_isObject (v : value) : isObject v = true -> truthy v = true.
Proof. destruct v; simpl; auto; discriminate. Qed.

(** C3: with Content [{ user: { name: 'A', email: 'a@x.com' } }] and Changes
    as a successful [set('user.name', 'B')] leaves it, [get('user')] returns
    [{ name: 'B', email: 'a@x.com' }], an object that is not [Content.user];
    [Content.user] is as before, and the call leaves the whole store
    (Content, Changes, Errors) as it was and notifies nobody. The last part
    holds for every key and every store. *)
Theorem get_user_merges_siblings :
  returned (get "user" user_store)
    = obj [("name", VStr "B"); ("email", VStr "a@x.com")] /\
  returned (get "user" user_store) <> get_prop (_content user_store) "user" /\
  get_prop (_content (after (get "user" user_store))) "user"
    = obj [("name", VStr "A"); ("email", VStr "a@x.com")] /\
  (forall (I : Imports) (key : string) (s : store),
     after (get key s) = s /\ trace (get key s) = []).
Proof.
  split; [reflexivity|]. split; [discriminate|]. split; [reflexivity|].
  intros I key s. rewrite get_unfold. split; reflexivity.
Qed.

(** C4: when Changes has the base key and the candidate read off it is a
    non-null plain object, [get] builds the sibling merge with Content's
    sub-object only if the normalized candidate is not an array, Content's
    value at the path is a plain object, that object is not a relationship
    placeholder and the path is not a leaf in Changes; if any of the four
    fails it returns the normalized candidate as it is. *)
Theorem get_sibling_merge_conditions `{I : Imports} (key : string) (s : store) :
  let baseKey := hd "" (split_dot key) in
  let remaining := tl (split_dot key) in
  let candidate := changes_candidate baseKey remaining (_changes s) in
  let contentAtLeaf := getDeep (_content s) key in
  hasOwnProperty (_changes s) baseKey = true ->
  isObject candidate = true ->
  returned (get key s) =
    if negb (isArray (normalizeObject candidate)) &&
       isObject contentAtLeaf &&
       negb (isBelongsToRelationship contentAtLeaf) &&
       negb (isLeafInChanges key (_changes s))
    then merge_siblings key baseKey (_content s) (normalizeObject candidate) contentAtLeaf
    else normalizeObject candidate.
Proof.
  intros baseKey remaining candidate contentAtLeaf Hown Hobj.
  rewrite get_unfold. cbn [returned].
  unfold get_from_changes. fold baseKey remaining. rewrite Hown.
  rewrite (changes_result_object _ _ _ Hobj). fold candidate. rewrite Hobj.
  assert (Hdef : negb (is_undefined candidate) && negb (is_null candidate) = true)
    by (destruct candidate; simpl in *; auto; discriminate).
  rewrite Hdef. cbn [andb]. unfold merges_with_content. fold contentAtLeaf.
  destruct (negb (isArray (normalizeObject candidate)) && isObject contentAtLeaf &&
            negb (isBelongsToRelationship contentAtLeaf) &&
            negb (isLeafInChanges key (_changes s))); reflexivity.
Qed.

Lemma get_sibling_merge_conditions_witness :
  hasOwnProperty (_changes owner_store) "owner" = true /\
  isObject (changes_candidate "owner" [] (_changes owner_store)) = true /\
  returned (get "owner" owner_store) = obj [("id", VNum 2)].
Proof.
  split; [reflexivity|]. split; [reflexivity|].
  exact (get_sibling_merge_conditions "owner" owner_store eq_refl eq_refl).
Defined.

(** C5, as the specification states it, fails: on [pristine_store] neither
    Changes nor Errors has an entry for [_content], and [get('_content')]
    returns the store's own [_content] field, the Content object itself,
    where the deep read of [_content] off Content is [undefined]. *)
Lemma get_own_member_is_not_content_read :
  hasOwnProperty (_changes pristine_store) (hd "" (split_dot "_content")) = false /\
  hasOwnProperty (_errors pristine_store) "_content" = false /\
  returned (get "_content" pristine_store) = _content pristine_store /\
  getDeep (_content pristine_store) "_content" = VUndef /\
  returned (get "_content" pristine_store)
    <> getDeep (_content pristine_store) "_content".
Proof.
  repeat split; try reflexivity. discriminate.
Qed.

(** C5, amended: when Changes has no own entry for the first segment of the
    path, and the store instance itself has no defined property named by the
    path and no object-valued property named by its first segment, [get]
    returns the deep read of the path off Content, whatever Errors holds. *)
Theorem get_falls_back_to_content `{I : Imports} (key : string) (s : store) :
  let baseKey := hd "" (split_dot key) in
  hasOwnProperty (_changes s) baseKey = false ->
  is_undefined (this_prop s key) = true ->
  truthy (this_prop s baseKey) && isObject (this_prop s baseKey) = false ->
  returned (get key s) = getDeep (_content s) key.
Proof.
  intros baseKey Hown Hkey Hbase.
  rewrite get_unfold. cbn [returned].
  unfold get_from_changes. fold baseKey. rewrite Hown.
  unfold get_from_instance. fold baseKey. rewrite Hkey. cbn [negb].
  destruct (truthy (this_prop s baseKey)); [|reflexivity].
  simpl in Hbase. rewrite Hbase. reflexivity.
Qed.

Lemma get_falls_back_to_content_witness :
  hasOwnProperty (_changes pristine_store) (hd "" (split_dot "name")) = false /\
  is_undefined (this_prop pristine_store "name") = true /\
  truthy (this_prop pristine_store (hd "" (split_dot "name"))) &&
    isObject (this_prop pristine_store (hd "" (split_dot "name"))) = false /\
  returned (get "name" pristine_store) = VStr "Jim".
Proof.
  split; [reflexivity|]. split; [reflexivity|]. split; [reflexivity|].
  exact (get_falls_back_to_content "name" pristine_store eq_refl eq_refl eq_refl).
Defined.




(** ** Notifications *)

(** C7: each notifying override first runs the base-class method that
    changes the map and only then notifies: the store it leaves is the one
    the base-class method left, its notifications come after everything the
    base-class call did, and each of them shows the observer that
    post-mutation store. This holds for [_setProperty], [addError],
    [pushErrors] and [_deleteKey], whatever the base class does. *)
Theorem notifications_follow_mutation `{B : BufferedChangeset} (s : store) :
  (forall key value oldValue,
     let m := super__setProperty key value oldValue s in
     after (_setProperty key value oldValue s) = after m /\
     trace (_setProperty key value oldValue s)
       = trace m ++ [Notify CHANGES (after m); Notify key (after m)]) /\
  (forall key error,
     let m := super_addError key error s in
     after (addError key error s) = after m /\
     trace (addError key error s)
       = trace m ++ [Notify ERRORS (after m); Notify key (after m)]) /\
  (forall key newErrors,
     let m := super_pushErrors key newErrors s in
     after (pushErrors key newErrors s) = after m /\
     trace (pushErrors key newErrors s)
       = trace m ++ [Notify ERRORS (after m); Notify key (after m)]) /\
  (forall objName key,
     let k := match key with Some k => k | None => "" end in
     let m := super__deleteKey objName k s in
     after (_deleteKey objName key s) = after m /\
     trace (_deleteKey objName key s)
       = trace m ++ [Notify (objName ++ "." ++ k) (after m); Notify objName (after m)]).
Proof.
  repeat split;
    unfold _setProperty, addError, pushErrors, _deleteKey, notifyPropertyChange,
      bind, emit, ret; simpl; reflexivity.
Qed.

(** ** Construction *)

(** C9: [changeset] throws (a failed assertion) exactly when the content is
    falsy or an array, and returns an instance exactly when it is neither. *)
Theorem changeset_asserts_content `{I : Imports} `{B : BufferedChangeset}
  (o : value) (validateFn : option validator) (validationMap : option value)
  (opts : option options) :
  ((exists message, changeset o validateFn validationMap opts = Throw message)
   <-> (truthy o = false \/ isArray o = true)) /\
  ((exists c, changeset o validateFn validationMap opts = Ok c)
   <-> (truthy o = true /\ isArray o = false)).
Proof.
  unfold changeset, assert, and_then.
  destruct (truthy o) eqn:Ht; destruct (isArray o) eqn:Ha; simpl.
  - split; split.
    + intros _. now right.
    + intros _. eauto.
    + intros [c Hc]. discriminate.
    + intros [_ H]. discriminate.
  - split; split.
    + intros [m Hm].
      destruct (options_changeset
                  match opts with Some x => x | None => mkOptions None [] end);
        discriminate.
    + intros [H | H]; discriminate.
    + intros _. split; reflexivity.
    + intros _.
      destruct (options_changeset
                  match opts with Some x => x | None => mkOptions None [] end);
        eauto.
  - split; split.
    + intros _. now left.
    + intros _. eauto.
    + intros [c Hc]. discriminate.
    + intros [H _]. discriminate.
  - split; split.
    + intros _. now left.
    + intros _. eauto.
    + intros [c Hc]. discriminate.
    + intros [H _]. discriminate.
Qed.

Lemma forwarding_handler_forwards :
  forwards_to_store
    (mkHandler
       (fun targetBuffer key =>
          (res <- klass_get (class_of targetBuffer) (toString key) ;;
           ret res) (state targetBuffer))
       (fun targetBuffer key value =>
          (klass_set (class_of targetBuffer) (toString key) value ;;;
           ret true) (state targetBuffer))).
Proof.
  split; intros; unfold bind, ret; simpl; rewrite app_nil_r; auto.
Qed.

(** C10: [Changeset] and [new ChangesetKlass] throw exactly when [changeset]
    throws; otherwise each returns a proxy around the instance [changeset]
    returned, and through that proxy every assignment, for every key and
    value, calls the store's [set] with the key's string, has its trap
    answer [true] and so does not throw, whatever [set] did with the value;
    every read answers the store's [get] of the key's string. *)
Theorem proxy_forwards_to_store `{I : Imports} `{B : BufferedChangeset}
  (o : value) (validateFn : option validator) (validationMap : option value)
  (opts : option options) :
  match changeset o validateFn validationMap opts,
        Changeset o validateFn validationMap opts,
        ChangesetKlass o validateFn validationMap opts with
  | Ok c, Ok p, Ok p' =>
      proxy_target p = c /\ proxy_target p' = c /\
      forwards_to_store (proxy_handler p) /\
      forwards_to_store (proxy_handler p') /\
      (forall key v,
         proxy_assign p key v = Ok (trap_set (proxy_handler p) c key v) /\
         proxy_assign p' key v = Ok (trap_set (proxy_handler p') c key v)) /\
      (forall key,
         returned (proxy_read p key)
           = returned (klass_get (class_of c) (toString key) (state c)) /\
         returned (proxy_read p' key)
           = returned (klass_get (class_of c) (toString key) (state c)))
  | Throw m, Throw m1, Throw m2 => m1 = m /\ m2 = m
  | _, _, _ => False
  end.
Proof.
  unfold Changeset, ChangesetKlass.
  destruct (changeset o validateFn validationMap opts) as [c | m]; simpl.
  - repeat split; try apply forwarding_handler_forwards; reflexivity.
  - split; reflexivity.
Qed.

(** * Further properties of the code *)

(** ** [isObject] *)

(** X1: [isObject] accepts exactly the objects that are neither [null], nor a
    [Date], nor an array: every primitive, every function, every date and
    every array is refused, every other object (a [Change] instance and a
    relationship placeholder included) is accepted. *)
Theorem isObject_exactly_objects (val : value) :
  isObject val = true <-> exists p ps, val = VObj p ps.
Proof.
  split.
  - apply isObject_VObj.
  - intros [p [ps ->]]. reflexivity.
Qed.

(** ** [get]: the steps in order *)

(** X2: On a nested path whose base key is in Changes, a candidate that is
    defined and not a plain object is returned at once, whatever Content,
    Errors and the store's own properties hold. *)
Theorem get_nested_leaf_short_circuit `{I : Imports} (key : string) (s : store) :
  let baseKey := hd "" (split_dot key) in
  let remaining := tl (split_dot key) in
  let candidate := changes_candidate baseKey remaining (_changes s) in
  hasOwnProperty (_changes s) baseKey = true ->
  remaining <> [] ->
  is_undefined candidate = false ->
  isObject candidate = false ->
  returned (get key s) = candidate.
Proof.
  intros baseKey remaining candidate Hown Hrem Hdef Hobj.
  rewrite get_unfold. cbn [returned].
  unfold get_from_changes. fold baseKey remaining. rewrite Hown.
  unfold changes_result. fold candidate.
  destruct remaining as [|r0 rs]; [contradiction|].
  cbn [List.length Nat.ltb Nat.leb]. rewrite Hdef, Hobj. reflexivity.
Qed.

Lemma get_nested_leaf_short_circuit_witness :
  hasOwnProperty (_changes zero_store) "user" = true /\
  (["age"] : list string) <> [] /\
  is_undefined (changes_candidate "user" ["age"] (_changes zero_store)) = false /\
  isObject (changes_candidate "user" ["age"] (_changes zero_store)) = false /\
  returned (get "user.age" zero_store) = VNum 0.
Proof.
  split; [reflexivity|]. split; [discriminate|]. split; [reflexivity|].
  split; [reflexivity|].
  refine (get_nested_leaf_short_circuit "user.age" zero_store eq_refl _ eq_refl eq_refl).
  simpl. discriminate.
Defined.

(** Splitting a path on dots and joining the parts again gives the path. *)
Lemma split_dot_nonempty (s : string) : split_dot s <> [].
Proof.
  destruct s as [|c r]; simpl; [discriminate|].
  destruct (Ascii.eqb c "."); [discriminate|].
  destruct (split_dot r); discriminate.
Qed.

Lemma join_split_dot (s : string) : join_dot (split_dot s) = s.
Proof.
  unfold join_dot. induction s as [|c r IH]; [reflexivity|].
  simpl. destruct (Ascii.eqb c ".") eqn:E.
  - apply Ascii.eqb_eq in E. subst c.
    destruct (split_dot r) as [|h t] eqn:Er; [now apply split_dot_nonempty in Er|].
    simpl. simpl in IH. now rewrite IH.
  - destruct (split_dot r) as [|h t] eqn:Er; [now apply split_dot_nonempty in Er|].
    destruct t as [|y l]; simpl in *; now rewrite IH.
Qed.

(** X3: When Changes has no entry for the base key, a defined property of the
    store instance named by the path is what [get] returns: Content is not
    read, so a Content field named like a member of the store ([execute],
    [get], [_content], ...) cannot be read through [get]. *)
Theorem get_store_member_shadows_content `{I : Imports} (key : string) (s : store) :
  hasOwnProperty (_changes s) (hd "" (split_dot key)) = false ->
  is_undefined (this_prop s key) = false ->
  returned (get key s) = this_prop s key.
Proof.
  intros Hown Hdef.
  rewrite get_unfold. cbn [returned].
  unfold get_from_changes. rewrite Hown.
  unfold get_from_instance. rewrite Hdef. reflexivity.
Qed.

Lemma get_store_member_shadows_content_witness :
  hasOwnProperty (_changes shadowed_store) (hd "" (split_dot "execute")) = false /\
  is_undefined (this_prop shadowed_store "execute") = false /\
  getDeep (_content shadowed_store) "execute" = VStr "now" /\
  returned (get "execute" shadowed_store) = VFun "execute".
Proof.
  split; [reflexivity|]. split; [reflexivity|]. split; [reflexivity|].
  exact (get_store_member_shadows_content "execute" shadowed_store eq_refl eq_refl).
Defined.

Lemma no_value_property (v : value) :
  isObject v = false -> get_prop v "value" = VUndef.
Proof.
  destruct v; simpl; try reflexivity; discriminate.
Qed.

(** X4: On a single-segment path, an entry of Changes that is truthy and not a
    plain object (a bare number, string, array, date or function, not
    wrapped in a [Change]) makes [get] return the entry's [value] property,
    which such a value does not have: the answer is [undefined], and neither
    the entry itself nor Content is returned. *)
Theorem get_bare_entry_reads_undefined `{I : Imports} (key : string) (s : store) :
  let entry := get_prop (_changes s) key in
  split_dot key = [key] ->
  hasOwnProperty (_changes s) key = true ->
  truthy entry = true ->
  isObject entry = false ->
  returned (get key s) = get_prop entry "value" /\
  returned (get key s) = VUndef.
Proof.
  intros entry Hsplit Hown Htruthy Hobj.
  rewrite get_unfold. cbn [returned].
  unfold get_from_changes. rewrite Hsplit. cbn [hd tl]. rewrite Hown.
  unfold changes_result, changes_candidate. cbn [List.length Nat.ltb Nat.leb].
  fold entry. rewrite Hobj, andb_false_r, Htruthy.
  split; [reflexivity | now apply no_value_property].
Qed.

Lemma get_bare_entry_reads_undefined_witness :
  split_dot "tags" = ["tags"] /\
  hasOwnProperty (_changes bare_entry_store) "tags" = true /\
  truthy (get_prop (_changes bare_entry_store) "tags") = true /\
  isObject (get_prop (_changes bare_entry_store) "tags") = false /\
  returned (get "tags" bare_entry_store)
    = get_prop (get_prop (_changes bare_entry_store) "tags") "value" /\
  returned (get "tags" bare_entry_store) = VUndef.
Proof.
  split; [reflexivity|]. split; [reflexivity|]. split; [reflexivity|].
  split; [reflexivity|].
  exact (get_bare_entry_reads_undefined "tags" bare_entry_store
           eq_refl eq_refl eq_refl eq_refl).
Defined.

(** X5: [get] reads the store through four things only: Changes, Content,
    and the instance's own properties named by the path and by its first
    segment. Two stores that agree on these give the same answer, so Errors
    (like any other state of the instance) bears on [get] only through what
    the instance answers for those two property names. *)
Theorem get_reads_store_through_members `{I : Imports} (key : string) (s s' : store) :
  let baseKey := hd "" (split_dot key) in
  _changes s = _changes s' ->
  _content s = _content s' ->
  this_prop s key = this_prop s' key ->
  this_prop s baseKey = this_prop s' baseKey ->
  returned (get key s) = returned (get key s').
Proof.
  intros baseKey Hch Hco Hkey Hbase.
  rewrite !get_unfold. cbn [returned]. fold baseKey.
  assert (Hstep1 : get_from_changes key baseKey (tl (split_dot key)) s
                   = get_from_changes key baseKey (tl (split_dot key)) s').
  { unfold get_from_changes. now rewrite Hch, Hco. }
  rewrite Hstep1.
  destruct (get_from_changes key baseKey (tl (split_dot key)) s'); [reflexivity|].
  unfold get_from_instance. now rewrite Hkey, Hbase, Hco.
Qed.

Lemma get_reads_store_through_members_witness :
  _changes sibling_error_store = _changes sibling_clean_store /\
  _content sibling_error_store = _content sibling_clean_store /\
  this_prop sibling_error_store "user.name"
    = this_prop sibling_clean_store "user.name" /\
  this_prop sibling_error_store (hd "" (split_dot "user.name"))
    = this_prop sibling_clean_store (hd "" (split_dot "user.name")) /\
  _errors sibling_error_store <> _errors sibling_clean_store /\
  returned (get "user.name" sibling_error_store)
    = returned (get "user.name" sibling_clean_store).
Proof.
  split; [reflexivity|]. split; [reflexivity|]. split; [reflexivity|].
  split; [reflexivity|]. split; [discriminate|].
  exact (get_reads_store_through_members "user.name" sibling_error_store
           sibling_clean_store eq_refl eq_refl eq_refl eq_refl).
Defined.

(** X6: The store's own fields can be read by path: when Changes has no entry
    named [_content] and the instance has no property named by the whole
    path, [get('_content.' + p)] is the deep read of [p] off Content. *)
Theorem get_reads_through_content_field `{I : Imports} (p : string) (s : store) :
  hasOwnProperty (_changes s) "_content" = false ->
  lookup (inherited s) ("_content." ++ p) = None ->
  isObject (_content s) = true ->
  returned (get ("_content." ++ p) s) = getDeep (_content s) p.
Proof.
  intros Hown Hinh Hobj.
  assert (Hsplit : split_dot ("_content." ++ p) = "_content" :: split_dot p).
  { simpl. destruct (split_dot p) eqn:E; [now apply split_dot_nonempty in E|].
    reflexivity. }
  rewrite get_unfold. cbn [returned]. rewrite Hsplit. cbn [hd tl].
  unfold get_from_changes. rewrite Hown.
  unfold get_from_instance.
  assert (Hkey : this_prop s ("_content." ++ p) = VUndef).
  { unfold this_prop. simpl. simpl in Hinh. rewrite Hinh. reflexivity. }
  rewrite Hkey. cbn [is_undefined negb].
  assert (Hbase : this_prop s "_content" = _content s) by reflexivity.
  rewrite Hbase, (truthy_isObject _ Hobj), Hobj.
  now rewrite join_split_dot.
Qed.

Lemma get_reads_through_content_field_witness :
  hasOwnProperty (_changes jim_store) "_content" = false /\
  lookup (inherited jim_store) ("_content." ++ "age") = None /\
  isObject (_content jim_store) = true /\
  returned (get ("_content." ++ "age") jim_store) = VNum 10 /\
  returned (get "age" jim_store) = VNum 11.
Proof.
  split; [reflexivity|]. split; [reflexivity|]. split; [reflexivity|].
  split; [|reflexivity].
  exact (get_reads_through_content_field "age" jim_store eq_refl eq_refl eq_refl).
Defined.

(** ** The sibling merge of [get] *)

Lemma lookup_In_keys (ps : props) (k : string) (v : value) :
  lookup ps k = Some v -> In k (keys ps).
Proof.
  induction ps as [|[k' v'] r IH]; simpl; [discriminate|].
  destruct (k' =? k) eqn:E.
  - apply String.eqb_eq in E. auto.
  - intros H. right. now apply IH.
Qed.

Lemma keys_assign (ps : props) (k j : string) (v : value) :
  In j (keys (assign ps k v)) <-> In j (keys ps) \/ j = k.
Proof.
  induction ps as [|[k' v'] r IH]; simpl.
  - intuition.
  - destruct (k' =? k) eqn:E; simpl.
    + apply String.eqb_eq in E. subst k'. intuition.
    + rewrite IH. intuition.
Qed.

Lemma lookup_assign (ps : props) (k j : string) (v : value) :
  lookup (assign ps k v) j = if k =? j then Some v else lookup ps j.
Proof.
  destruct (k =? j) eqn:E.
  - apply String.eqb_eq in E. subst j. apply lookup_assign_same.
  - apply String.eqb_neq in E. now apply lookup_assign_other.
Qed.

(** [Object.assign] onto an object, entry by entry. *)
Lemma fold_set_prop_object (p : proto) (l d : props) :
  fold_left (fun acc kv => set_prop acc (fst kv) (snd kv)) l (VObj p d)
  = VObj p (fold_left (fun acc kv => assign acc (fst kv) (snd kv)) l d).
Proof.
  revert d. induction l as [|[k v] r IH]; intro d; simpl; [reflexivity|].
  apply IH.
Qed.

Lemma lookup_fold_assign (l d : props) (j : string) :
  nodupb (keys l) = true ->
  lookup (fold_left (fun acc kv => assign acc (fst kv) (snd kv)) l d) j
  = match lookup l j with Some v => Some v | None => lookup d j end.
Proof.
  revert d. induction l as [|[k v] r IH]; intros d Hnd; simpl; [reflexivity|].
  simpl in Hnd. apply andb_prop in Hnd. destruct Hnd as [Hfresh Hnd].
  rewrite IH by assumption. rewrite lookup_assign.
  destruct (k =? j) eqn:E; [|reflexivity].
  apply String.eqb_eq in E. subst j.
  destruct (lookup r k) eqn:Er; [|reflexivity].
  apply lookup_In_keys in Er. apply existsb_eqb_In in Er.
  rewrite Er in Hfresh. discriminate.
Qed.

Lemma keys_fold_assign (l d : props) (j : string) :
  In j (keys (fold_left (fun acc kv => assign acc (fst kv) (snd kv)) l d))
  <-> In j (keys d) \/ In j (keys l).
Proof.
  revert d. induction l as [|[k v] r IH]; intro d; simpl; [tauto|].
  rewrite IH, keys_assign. intuition.
Qed.

(** A loop that, for each key, writes a value that depends on the key alone
    or leaves the object alone. *)
Lemma fold_keyed_writes (f : string -> option value) (step : value -> string -> value)
  (ks : list string) (p : proto) (d : props) :
  (forall data k, step data k
                  = match f k with Some v => set_prop data k v | None => data end) ->
  exists d',
    fold_left step ks (VObj p d) = VObj p d' /\
    (forall j, lookup d' j
               = if existsb (String.eqb j) ks
                 then match f j with Some v => Some v | None => lookup d j end
                 else lookup d j) /\
    (forall j, In j (keys d') <-> In j (keys d) \/ (In j ks /\ f j <> None)).
Proof.
  intros Hstep. revert d. induction ks as [|k r IH]; intro d; simpl.
  - exists d. split; [reflexivity|]. split; [reflexivity|]. intuition.
  - rewrite Hstep. destruct (f k) as [v|] eqn:Ef.
    + simpl. destruct (IH (assign d k v)) as [d' [Hfold [Hlook Hkeys]]].
      exists d'. split; [assumption|]. split.
      * intro j. rewrite Hlook, lookup_assign.
        destruct (String.eqb j k) eqn:E.
        { apply String.eqb_eq in E. subst j. rewrite String.eqb_refl, Ef. simpl.
          destruct (existsb (String.eqb k) r); reflexivity. }
        { rewrite String.eqb_sym, E. simpl. reflexivity. }
      * intro j. rewrite Hkeys, keys_assign. split.
        { intros [[H | H] | [H Hf]];
            [ left; assumption
            | subst j; right; split; [left; reflexivity | congruence]
            | right; split; [right; assumption | assumption] ]. }
        { intros [H | [[H | H] Hf]];
            [ left; left; assumption
            | subst j; left; right; reflexivity
            | right; split; assumption ]. }
    + destruct (IH d) as [d' [Hfold [Hlook Hkeys]]].
      exists d'. split; [assumption|]. split.
      * intro j. rewrite Hlook.
        destruct (String.eqb j k) eqn:E; simpl; [|reflexivity].
        apply String.eqb_eq in E. subst j. rewrite Ef.
        destruct (existsb (String.eqb k) r); reflexivity.
      * intro j. rewrite Hkeys. split.
        { intros [H | [H Hf]];
            [ left; assumption | right; split; [right; assumption | assumption] ]. }
        { intros [H | [[H | H] Hf]];
            [ left; assumption
            | subst j; contradiction
            | right; split; assumption ]. }
Qed.

Lemma string_append_assoc (a b c : string) :
  ((a ++ b) ++ c = a ++ (b ++ c))%string.
Proof.
  induction a as [|x a IH]; simpl; [reflexivity | now rewrite IH].
Qed.

Lemma join_dot_snoc (l : list string) (k : string) :
  l <> [] -> join_dot (l ++ [k]) = (join_dot l ++ "." ++ k)%string.
Proof.
  unfold join_dot. induction l as [|x r IH]; [contradiction|]. intros _.
  destruct r as [|y r'].
  - reflexivity.
  - change ((x :: y :: r') ++ [k]) with (x :: ((y :: r') ++ [k])).
    change (String.concat "." (x :: (y :: r') ++ [k]))
      with (x ++ "." ++ String.concat "." ((y :: r') ++ [k]))%string.
    rewrite IH by discriminate.
    change (String.concat "." (x :: y :: r'))
      with (x ++ "." ++ String.concat "." (y :: r'))%string.
    now rewrite !string_append_assoc.
Qed.

Lemma merge_siblings_object `{I : Imports} (key baseKey : string)
  (content contentAtLeaf : value) (rp : proto) (rps : props) :
  nodupb (keys rps) = true ->
  Object_keys contentAtLeaf <> [] ->
  exists d',
    merge_siblings key baseKey content (VObj rp rps) contentAtLeaf
      = VObj (getPrototypeOf (get_prop content baseKey)) d' /\
    (forall j, lookup d' j
               = if existsb (String.eqb j) (Object_keys contentAtLeaf)
                 then match sibling_write key content (VObj rp rps) j with
                      | Some v => Some v
                      | None => lookup rps j
                      end
                 else lookup rps j) /\
    (forall j, In j (keys d')
               <-> In j (keys rps) \/
                   (In j (Object_keys contentAtLeaf) /\
                    sibling_write key content (VObj rp rps) j <> None)).
Proof.
  intros Hnd Hkeys. unfold merge_siblings.
  destruct (Object_keys contentAtLeaf) as [|k0 ks] eqn:Ek; [contradiction|].
  cbn [List.length Nat.eqb]. rewrite <- Ek. clear Ek Hkeys k0 ks.
  unfold Object_assign. cbn [own_props]. rewrite fold_set_prop_object.
  set (d0 := fold_left (fun acc kv => assign acc (fst kv) (snd kv)) rps []).
  destruct (fold_keyed_writes (sibling_write key content (VObj rp rps))
              (fun data k =>
                 let inResult := read_prop (VObj rp rps) k in
                 let keyParts := split_dot key ++ [k] in
                 let contentData := getDeep content (join_dot keyParts) in
                 if isObject contentData && isObject inResult then
                   set_prop data k (spread2 contentData inResult)
                 else if is_undefined inResult then
                   set_prop data k contentData
                 else data)
              (Object_keys contentAtLeaf)
              (getPrototypeOf (get_prop content baseKey)) d0)
    as [d' [Hfold [Hlook Hin]]].
  { intros data k. unfold sibling_write. cbv zeta.
    rewrite join_dot_snoc by apply split_dot_nonempty. rewrite join_split_dot.
    destruct (isObject (getDeep content (key ++ "." ++ k)) &&
              isObject (read_prop (VObj rp rps) k)); [reflexivity|].
    destruct (is_undefined (read_prop (VObj rp rps) k)); reflexivity. }
  exists d'. split; [exact Hfold|]. split.
  - intro j. rewrite Hlook. unfold d0. rewrite lookup_fold_assign by assumption.
    simpl lookup at 3 5.
    destruct (lookup rps j); reflexivity.
  - intro j. rewrite Hin. unfold d0. rewrite keys_fold_assign. simpl. tauto.
Qed.





Lemma spread2_reads (pa pb : proto) (xs ys : props) (j : string) :
  nodupb (keys xs) = true -> nodupb (keys ys) = true ->
  get_prop (spread2 (VObj pa xs) (VObj pb ys)) j
  = match lookup ys j with
    | Some v => v
    | None => get_prop (VObj pa xs) j
    end.
Proof.
  intros Hx Hy. unfold spread2, Object_assign. cbn [own_props].
  rewrite !fold_set_prop_object. cbn [get_prop].
  rewrite lookup_fold_assign by assumption.
  destruct (lookup ys j); [reflexivity|].
  rewrite lookup_fold_assign by assumption.
  destruct (lookup xs j); reflexivity.
Qed.

(** X9: Where Content's sub-object and the candidate both hold a plain object
    at a key, the merged view holds their shallow merge: an entry of the
    candidate's object wins, an entry only Content's object has is kept,
    and nothing below that level is merged. *)
Theorem sibling_merge_is_shallow `{I : Imports} (key baseKey : string)
  (content contentAtLeaf : value) (rp : proto) (rps : props) (k : string)
  (pc pi : proto) (cs ins : props) (j : string) :
  let view := merge_siblings key baseKey content (VObj rp rps) contentAtLeaf in
  nodupb (keys rps) = true ->
  In k (Object_keys contentAtLeaf) ->
  getDeep content (key ++ "." ++ k) = VObj pc cs ->
  lookup rps k = Some (VObj pi ins) ->
  nodupb (keys cs) = true -> nodupb (keys ins) = true ->
  get_prop (get_prop view k) j
  = match lookup ins j with
    | Some v => v
    | None => match lookup cs j with Some v => v | None => VUndef end
    end.
Proof.
  intros view Hnd Hin Hcd Hres Hcs Hins.
  assert (Hkeys : Object_keys contentAtLeaf <> []).
  { intro E. rewrite E in Hin. contradiction. }
  destruct (merge_siblings_object key baseKey content contentAtLeaf rp rps Hnd Hkeys)
    as [d' [Hview [Hlook _]]].
  unfold view. rewrite Hview. cbn [get_prop]. rewrite Hlook.
  apply existsb_eqb_In in Hin. rewrite Hin.
  unfold sibling_write. cbn [read_prop hasOwnProperty get_prop]. rewrite Hcd, Hres.
  cbn [isObject is_null isArray negb andb].
  now rewrite spread2_reads.
Qed.

Lemma sibling_merge_is_shallow_witness :
  nodupb (keys address_candidate) = true /\
  In "address" (Object_keys (get_prop address_content "user")) /\
  get_prop (get_prop (merge_siblings "user" "user" address_content
                        (VObj PObject address_candidate)
                        (get_prop address_content "user")) "address") "zip"
    = VStr "1" /\
  get_prop (get_prop (merge_siblings "user" "user" address_content
                        (VObj PObject address_candidate)
                        (get_prop address_content "user")) "address") "city"
    = VStr "Y".
Proof.
  assert (H : In "address" (Object_keys (get_prop address_content "user")))
    by (right; left; reflexivity).
  split; [reflexivity|]. split; [exact H|]. split.
  - exact (sibling_merge_is_shallow "user" "user" address_content
             (get_prop address_content "user") PObject address_candidate "address"
             PObject PObject [("city", VStr "X"); ("zip", VStr "1")]
             [("city", VStr "Y")] "zip" eq_refl H eq_refl eq_refl eq_refl eq_refl).
  - exact (sibling_merge_is_shallow "user" "user" address_content
             (get_prop address_content "user") PObject address_candidate "address"
             PObject PObject [("city", VStr "X"); ("zip", VStr "1")]
             [("city", VStr "Y")] "city" eq_refl H eq_refl eq_refl eq_refl eq_refl).
Defined.

(** ** A pending leaf change read back *)

(** X10: A change recorded at a top-level key as [Change(v)] reads back as [v],
    whatever Content, Errors and the store's own properties hold, and
    [execute()] does not alter that answer; this uses of the imported
    helpers only that [normalizeObject] unwraps the wrapper and that
    [isLeafInChanges] reports the key as a leaf. *)
Theorem get_leaf_change_reads_back `{I : Imports} (key : string) (s : store)
  (v : value) :
  split_dot key = [key] ->
  hasOwnProperty (_changes s) key = true ->
  get_prop (_changes s) key = Change v ->
  normalizeObject (Change v) = v ->
  isLeafInChanges key (_changes s) = true ->
  returned (get key s) = v /\
  returned (get key (after (execute s))) = v.
Proof.
  intros Hsplit Hown Hentry Hnorm Hleaf.
  assert (Hany : forall s', _changes s' = _changes s -> returned (get key s') = v).
  { intros s' Hch. rewrite get_unfold. cbn [returned].
    unfold get_from_changes. rewrite Hsplit. cbn [hd tl]. rewrite Hch, Hown.
    unfold changes_result, changes_candidate. cbn [List.length Nat.ltb Nat.leb].
    rewrite Hentry. cbn [Change isObject is_null isArray is_undefined negb andb].
    change (VObj PChange [("value", v)]) with (Change v). rewrite Hnorm.
    unfold merges_with_content. rewrite Hleaf.
    cbn [negb]. rewrite andb_false_r. reflexivity. }
  split; [now apply Hany|].
  apply Hany. rewrite execute_unfold.
  destruct (isValid s && isDirty s); reflexivity.
Qed.

Lemma get_leaf_change_reads_back_witness :
  split_dot "age" = ["age"] /\
  hasOwnProperty (_changes jim_store) "age" = true /\
  get_prop (_changes jim_store) "age" = Change (VNum 11) /\
  normalizeObject (Change (VNum 11)) = VNum 11 /\
  isLeafInChanges "age" (_changes jim_store) = true /\
  returned (get "age" jim_store) = VNum 11 /\
  returned (get "age" (after (execute jim_store))) = VNum 11.
Proof.
  split; [reflexivity|]. split; [reflexivity|]. split; [reflexivity|].
  split; [reflexivity|]. split; [reflexivity|].
  exact (get_leaf_change_reads_back "age" jim_store (VNum 11)
           eq_refl eq_refl eq_refl eq_refl eq_refl).
Defined.

(** ** The other overrides *)

Lemma returned_bind {A C : Type} (m : M A) (f : A -> M C) (s : store) :
  returned (bind m f s) = returned (f (returned (m s)) (after (m s))).
Proof. reflexivity. Qed.

Lemma after_bind {A C : Type} (m : M A) (f : A -> M C) (s : store) :
  after (bind m f s) = after (f (returned (m s)) (after (m s))).
Proof. reflexivity. Qed.

Lemma trace_bind {A C : Type} (m : M A) (f : A -> M C) (s : store) :
  trace (bind m f s) = trace (m s) ++ trace (f (returned (m s)) (after (m s))).
Proof. reflexivity. Qed.

Lemma notify_each (ks : list string) (s : store) :
  fold_right (fun key rest => notifyPropertyChange key ;;; rest) (ret tt) ks s
  = mkOutcome tt s (map (fun k => Notify k s) ks).
Proof.
  induction ks as [|k r IH]; [reflexivity|].
  cbn [fold_right map]. unfold bind at 1. cbv zeta.
  change (notifyPropertyChange k s) with (mkOutcome tt s [Notify k s]).
  cbn [returned after trace]. rewrite IH. reflexivity.
Qed.

(** X11: [_notifyVirtualProperties] notifies once for each key the base-class
    method hands back, in that order and after it has run, each observer
    seeing the store it left; when it hands back [undefined] nobody is
    notified. The store is the one the base-class method left. *)
Theorem notifyVirtualProperties_notifies_each `{B : BufferedChangeset}
  (keys : option (list string)) (s : store) :
  let m := super__notifyVirtualProperties keys s in
  returned (_notifyVirtualProperties keys s) = RVoid /\
  after (_notifyVirtualProperties keys s) = after m /\
  trace (_notifyVirtualProperties keys s)
    = trace m ++ map (fun k => Notify k (after m))
                     (match returned m with Some ks => ks | None => [] end).
Proof.
  intros m. unfold _notifyVirtualProperties.
  repeat (rewrite returned_bind || rewrite after_bind || rewrite trace_bind).
  fold m. rewrite notify_each. cbn [returned after trace ret].
  rewrite app_nil_r. auto.
Qed.

(** ** The factory *)

(** X12: What [changeset] answers, case by case: missing content fails with
    'Underlying object for changeset is missing' (checked first), an array
    fails with the array message, and otherwise the instance is built by
    [options.changeset] when one is given and by [EmberChangeset] when not,
    from the content and with an omitted validator replaced by the
    always-passing default and an omitted map by [{}]. The alternate class
    is never constructed on content the assertions refuse. *)
Theorem changeset_outcome `{I : Imports} `{B : BufferedChangeset}
  (o : value) (validateFn : option validator) (validationMap : option value)
  (K : option klass) (rest : props) :
  changeset o validateFn validationMap (Some (mkOptions K rest)) =
    if negb (truthy o) then Throw "Underlying object for changeset is missing"
    else if isArray o then
      Throw "Array is not a valid type to pass as the first argument to `changeset`"
    else
      Ok (mkInstance
            (match K with Some k => k | None => EmberChangeset end)
            (construct (match K with Some k => k | None => EmberChangeset end)
               o
               (match validateFn with Some f => f | None => fun _ _ _ => VBool true end)
               (match validationMap with Some m => m | None => obj [] end)
               rest)).
Proof.
  unfold changeset, assert, and_then.
  destruct (truthy o); cbn [negb]; [|reflexivity].
  destruct (isArray o); cbn [negb]; [reflexivity|].
  destruct K; reflexivity.
Qed.

(** X13: The factory function [Changeset] and the constructor of
    [ChangesetKlass] answer alike on the same arguments; with the default
    class, a read through the proxy answers what the store's [get] answers
    for the key's string, changes nothing in the store and notifies nobody,
    and construction fails only on content that is falsy or an array. *)
Theorem proxy_read_is_store_get `{I : Imports} `{B : BufferedChangeset}
  (o : value) (validateFn : option validator) (validationMap : option value)
  (rest : option props) :
  let opts := option_map (mkOptions None) rest in
  match Changeset o validateFn validationMap opts,
        ChangesetKlass o validateFn validationMap opts with
  | Ok p, Ok p' =>
      p = p' /\
      forall key,
        proxy_read p key
        = mkOutcome (returned (get (toString key) (state (proxy_target p))))
                    (state (proxy_target p)) []
  | Throw m, Throw m' => m = m' /\ (truthy o = false \/ isArray o = true)
  | _, _ => False
  end.
Proof.
  intros opts. unfold Changeset, ChangesetKlass, changeset, assert, and_then.
  destruct (truthy o); cbn [negb].
  - destruct (isArray o); cbn [negb].
    + split; [reflexivity | now right].
    + assert (Hdefault : options_changeset
                (match opts with Some x => x | None => mkOptions None [] end) = None)
        by (unfold opts; destruct rest; reflexivity).
      rewrite Hdefault. split; [reflexivity|].
      intro key. unfold proxy_read. cbn [proxy_handler proxy_target trap_get].
      unfold new. cbn [class_of state EmberChangeset klass_get].
      unfold bind, ret. rewrite get_unfold. reflexivity.
  - split; [reflexivity | now left].
Qed.
